(** * Dashboard.tsx: the statistics aggregation of the analytics dashboard

    A shallow embedding of [src/project/src/components/Dashboard.tsx].

    - JavaScript numbers that hold counts are integers ([Z]); the one place
      where the component divides ([Success Rate]) goes through [Number.t],
      the binary64 numbers: [NaN], the infinities, and the finite values,
      every operation rounding to the nearest of them.
    - Firestore documents are records of optional fields, each of the type
      the data model gives it ([section] a string, [experimentsCompleted] a
      sequence); a [Map] is an association list in insertion order, a plain
      object used as a dictionary ([vivaScores]) is a [gmap].
    - [fetchStats] runs in a small state-and-exception monad over the
      component state ([stats]) and a trace of the effects it performs. *)

From Stdlib Require Import ZArith QArith Qround Qpower Lia Lqa.
From stdpp Require Import gmap strings list pretty.

Local Open Scope string_scope.
Local Open Scope list_scope.
Local Open Scope Z_scope.

(** ** Data model *)

Inductive Role := faculty | student.

#[global] Instance Role_eq_dec : EqDecision Role.
Proof. solve_decision. Defined.

(** The value [useAuth()] hands out; [None] stands for a missing profile. *)
Module UserProfile.
Record t := mk {
  role : Role;
  uid : string;
  experimentsCompleted : option (list string);
  vivaScores : option (gmap string Z)
}.
End UserProfile.

(** A document as the component sees it: [{ id: doc.id, ...doc.data() }]. *)
Module Doc.
Record t := mk {
  id : string;
  facultyId : option string;
  section : option string;
  experimentsCompleted : option (list string)
}.
End Doc.

(** One slice of a pie chart. *)
Record Slice := mkSlice {
  name : string;
  value : Z;
  color : string
}.

Record Stats := mkStats {
  totalStudents : Z;
  totalExperiments : Z;
  completedExperiments : Z;
  vivaAttempts : Z;
  sectionWiseStudents : list Slice;
  experimentProgress : list Slice;
  vivaProgress : list Slice
}.

(** The argument of [useState]. *)
Definition initialStats : Stats :=
  {| totalStudents := 0;
     totalExperiments := 0;
     completedExperiments := 0;
     vivaAttempts := 0;
     sectionWiseStudents := [];
     experimentProgress := [];
     vivaProgress := [] |}.

Definition colors : list string :=
  ["#3B82F6"; "#10B981"; "#F59E0B"; "#EF4444";
   "#8B5CF6"; "#06B6D4"; "#84CC16"; "#F97316"].

(** ** [Map]: string keys, insertion order kept *)

Module JsMap.
Definition t (V : Type) := list (string * V).

Definition empty {V} : t V := [].

Fixpoint get {V} (k : string) (m : t V) : option V :=
  match m with
  | [] => None
  | (k', v) :: m' => if decide (k = k') then Some v else get k m'
  end.

(** [set] on a key already present keeps the key at its place. *)
Fixpoint set {V} (k : string) (v : V) (m : t V) : t V :=
  match m with
  | [] => [(k, v)]
  | (k', v') :: m' =>
      if decide (k = k') then (k', v) :: m' else (k', v') :: set k v m'
  end.

Definition entries {V} (m : t V) : list (string * V) := m.

Definition keys {V} (m : t V) : list string := m.*1.
End JsMap.

(** ** The faculty path, pure part *)

(** [student.section || 'Unknown']: the empty string is falsy. *)
Definition sectionOf (student : Doc.t) : string :=
  match Doc.section student with
  | Some s => if decide (s = EmptyString) then "Unknown" else s
  | None => "Unknown"
  end.

(** The body of the first [students.forEach]. *)
Definition countSection (sectionMap : JsMap.t Z) (student : Doc.t) : JsMap.t Z :=
  let section := sectionOf student in
  JsMap.set section (default 0 (JsMap.get section sectionMap) + 1) sectionMap.

Definition sectionMap (students : list Doc.t) : JsMap.t Z :=
  foldl countSection JsMap.empty students.

Definition sectionData (students : list Doc.t) : list Slice :=
  imap (fun index '(section, count) =>
          {| name := section;
             value := count;
             color := nth (index mod length colors)%nat colors EmptyString |})
       (JsMap.entries (sectionMap students)).

(** [(student.experimentsCompleted || []).length] *)
Definition completionsOf (student : Doc.t) : Z :=
  Z.of_nat (length (default [] (Doc.experimentsCompleted student))).

(** The second [students.forEach], accumulating into [totalCompletions]. *)
Definition totalCompletions (students : list Doc.t) : Z :=
  foldl (fun acc student => acc + completionsOf student) 0 students.

(** The object literal handed to [setStats] on the faculty path. *)
Definition facultyStats (students experiments : list Doc.t) : Stats :=
  let totalExperiments := Z.of_nat (length experiments) in
  let totalCompletions := totalCompletions students in
  {| totalStudents := Z.of_nat (length students);
     totalExperiments := Z.of_nat (length experiments);
     completedExperiments := totalCompletions;
     vivaAttempts := 0;
     sectionWiseStudents := sectionData students;
     experimentProgress :=
       [ {| name := "Completed"; value := totalCompletions; color := "#10B981" |};
         {| name := "Pending";
            value := Z.max 0 (Z.of_nat (length students) * totalExperiments
                              - totalCompletions);
            color := "#F59E0B" |} ];
     vivaProgress :=
       [ {| name := "Attempted"; value := 30; color := "#3B82F6" |};
         {| name := "Not Attempted"; value := 70; color := "#E5E7EB" |} ] |}.

(** ** The student path, pure part *)

(** [Object.keys(o).length] *)
Definition Object_keys_length (o : gmap string Z) : Z := Z.of_nat (size o).

Definition studentStats (studentData : UserProfile.t) : Stats :=
  (* studentData.experimentsCompleted?.length || 0 *)
  let completedExperiments :=
    match UserProfile.experimentsCompleted studentData with
    | Some l => Z.of_nat (length l)
    | None => 0
    end in
  (* Object.keys(studentData.vivaScores || {}).length *)
  let vivaScores :=
    Object_keys_length (default ∅ (UserProfile.vivaScores studentData)) in
  {| totalStudents := 0;
     totalExperiments := 5;
     completedExperiments := completedExperiments;
     vivaAttempts := vivaScores;
     sectionWiseStudents := [];
     experimentProgress :=
       [ {| name := "Completed"; value := completedExperiments; color := "#10B981" |};
         {| name := "Remaining"; value := Z.max 0 (5 - completedExperiments);
            color := "#F59E0B" |} ];
     vivaProgress :=
       [ {| name := "Attempted"; value := vivaScores; color := "#3B82F6" |};
         {| name := "Remaining"; value := Z.max 0 (5 - vivaScores);
            color := "#E5E7EB" |} ] |}.

(** ** Numbers: binary64

    Only the [Success Rate] card computes with a quotient.  A finite number
    is held as the rational it denotes; division and multiplication round
    the exact result to the nearest binary64 number, ties to the even
    significand, as IEEE 754 and ECMAScript prescribe.  The two zeros are not
    told apart.  Integers below [2^53] in absolute value are binary64
    numbers themselves, so a count is its own [Number]. *)

Module Number.
Inductive t := NaN | Infinity | NegInfinity | Finite (q : Q).

Definition of_Z (z : Z) : t := Finite (inject_Z z).

Definition pow2 (s : Z) : Q := (2 ^ s)%Q.

(** The integer nearest to [x], the even one of the two when [x] lies
    halfway. *)
Definition roundHalfEven (x : Q) : Z :=
  let f := Qfloor x in
  match (x - inject_Z f ?= 1 # 2)%Q with
  | Lt => f
  | Gt => f + 1
  | Eq => if Z.even f then f else f + 1
  end.

(** For [0 < q], the [e] with [2^e <= q < 2^(e+1)]. *)
Definition exponent (q : Q) : Z :=
  if Qle_bool 1 q then Z.log2 (Qfloor q) else - Z.log2_up (Qceiling (/ q)).

(** For [0 < q], the nearest multiple of the unit in the last place: 53
    significant bits, and nothing finer than [2^-1074]. *)
Definition nearest (q : Q) : Q :=
  let s := Z.max (exponent q - 52) (-1074) in
  (inject_Z (roundHalfEven (q / pow2 s)) * pow2 s)%Q.

(** The binary64 number an exact result [q] is rounded to; what reaches
    [2^1024] overflows. *)
Definition binary64 (q : Q) : t :=
  match (q ?= 0)%Q with
  | Eq => Finite 0
  | Gt => let v := nearest q in
          if Qle_bool (pow2 1024) v then Infinity else Finite v
  | Lt => let v := nearest (- q) in
          if Qle_bool (pow2 1024) v then NegInfinity else Finite (- v)
  end.

(** [x / y] for integer operands: [0 / 0] is [NaN], any other division
    by zero an infinity. *)
Definition div (x y : Z) : t :=
  if decide (y = 0) then
    if decide (x = 0) then NaN
    else if decide (0 < x) then Infinity else NegInfinity
  else binary64 (inject_Z x / inject_Z y).

(** [x * k] for an integer [k]. *)
Definition mul (x : t) (k : Z) : t :=
  match x with
  | NaN => NaN
  | Infinity =>
      if decide (k = 0) then NaN
      else if decide (0 < k) then Infinity else NegInfinity
  | NegInfinity =>
      if decide (k = 0) then NaN
      else if decide (0 < k) then NegInfinity else Infinity
  | Finite q => binary64 (q * inject_Z k)
  end.

(** [Math.round]: to the nearest integer, halves upwards.  The result is
    exact: a binary64 number that is not an integer is below [2^52]. *)
Definition round (x : t) : t :=
  match x with
  | Finite q => of_Z (Qfloor (q + (1 # 2))%Q)
  | _ => x
  end.

Definition is_finite (x : t) : bool :=
  match x with Finite _ => true | _ => false end.

(** Half the distance from 1 to the next binary64 number. *)
Definition unitRoundoff : Q := 1 # 9007199254740992.
End Number.

(** The largest [length] an array can have, [2^32 - 1]. *)
Definition Array_maxLength : Z := 4294967295.

(** ** Effects: the component state, the queries and the console *)

Definition JsError := string.

Inductive Event :=
  | EvGetDocs (collection facultyId : string)
  | EvSetStats (s : Stats)
  | EvConsoleError (message : string) (error : JsError).

Record World := mkWorld {
  stats : Stats;
  trace : list Event
}.

Inductive Completion (A : Type) :=
  | Normal (a : A)
  | Throw (error : JsError).
Arguments Normal {A} a.
Arguments Throw {A} error.

Definition M (A : Type) : Type := World → Completion A * World.

#[global] Instance M_ret : MRet M := λ A a w, (Normal a, w).

#[global] Instance M_bind : MBind M := λ A B f m w,
  match m w with
  | (Normal a, w') => f a w'
  | (Throw error, w') => (Throw error, w')
  end.

(** [try { body } catch (error) { handler }] *)
Definition try_catch {A} (body : M A) (handler : JsError → M A) : M A := λ w,
  match body w with
  | (Normal a, w') => (Normal a, w')
  | (Throw error, w') => handler error w'
  end.

Definition emit (ev : Event) (w : World) : World :=
  {| stats := stats w; trace := trace w ++ [ev] |}.

Definition setStats (s : Stats) : M unit := λ w,
  (Normal (), {| stats := s; trace := trace w ++ [EvSetStats s] |}).

Definition console_error (message : string) (error : JsError) : M unit := λ w,
  (Normal (), emit (EvConsoleError message error) w).

(** The document store: a collection either answers with its documents or
    makes the query throw. *)
Definition Firestore := string → Completion (list Doc.t).

(** [where('facultyId', '==', uid)] *)
Definition matching (uid : string) (docs : list Doc.t) : list Doc.t :=
  filter (λ d, Doc.facultyId d = Some uid) docs.

(** [getDocs(query(collection(db, c), where('facultyId', '==', uid)))] *)
Definition getDocs (db : Firestore) (c uid : string) : M (list Doc.t) := λ w,
  let w' := emit (EvGetDocs c uid) w in
  match db c with
  | Normal docs => (Normal (matching uid docs), w')
  | Throw error => (Throw error, w')
  end.

Definition fetchStats (db : Firestore) (userProfile : option UserProfile.t) : M unit :=
  match userProfile with
  | None => mret ()
  | Some userProfile =>
      try_catch
        (match UserProfile.role userProfile with
         | faculty =>
             students ← getDocs db "students" (UserProfile.uid userProfile);
             experiments ← getDocs db "experiments" (UserProfile.uid userProfile);
             setStats (facultyStats students experiments)
         | student =>
             setStats (studentStats userProfile)
         end)
        (λ error, console_error "Error fetching stats:" error)
  end.

(** ** Rendering *)

Module StatCard.
Record t := mk {
  title : string;
  value : Number.t;
  color : string
}.
End StatCard.

Module PieChartCard.
Record t := mk {
  title : string;
  data : list Slice
}.
End PieChartCard.

Record View := mkView {
  heading : string;
  cards : list StatCard.t;
  charts : list PieChartCard.t
}.

(** [Math.round((stats.completedExperiments / stats.totalExperiments) * 100)] *)
Definition successRate (stats : Stats) : Number.t :=
  Number.round
    (Number.mul (Number.div (completedExperiments stats) (totalExperiments stats)) 100).

(** What the component returns; [None] is [null].  Icons and the static
    activity list carry no data and are left out. *)
Definition Dashboard (userProfile : option UserProfile.t) (stats : Stats) : option View :=
  match userProfile with
  | None => None
  | Some userProfile =>
      let isFaculty := bool_decide (UserProfile.role userProfile = faculty) in
      Some
        {| heading := if isFaculty then "Faculty Dashboard" else "Student Dashboard";
           cards :=
             if isFaculty then
               [ StatCard.mk "Total Students" (Number.of_Z (totalStudents stats)) "bg-blue-500";
                 StatCard.mk "Total Experiments" (Number.of_Z (totalExperiments stats)) "bg-green-500";
                 StatCard.mk "Completed Experiments" (Number.of_Z (completedExperiments stats)) "bg-yellow-500";
                 StatCard.mk "Viva Attempts" (Number.of_Z (vivaAttempts stats)) "bg-purple-500" ]
             else
               [ StatCard.mk "Experiments Completed" (Number.of_Z (completedExperiments stats)) "bg-green-500";
                 StatCard.mk "Viva Questions Attempted" (Number.of_Z (vivaAttempts stats)) "bg-blue-500";
                 StatCard.mk "Total Experiments" (Number.of_Z (totalExperiments stats)) "bg-yellow-500";
                 StatCard.mk "Success Rate" (successRate stats) "bg-purple-500" ];
           charts :=
             (if isFaculty && bool_decide (0 < length (sectionWiseStudents stats))%nat
              then [ PieChartCard.mk "Students by Section" (sectionWiseStudents stats) ]
              else [])
             ++ [ PieChartCard.mk "Experiment Progress" (experimentProgress stats);
                  PieChartCard.mk "Viva Progress" (vivaProgress stats) ] |}
  end.

(** ** Notions the claims are stated with *)

(** The distinct elements of a list, each at the place of its first
    occurrence. *)
Fixpoint distinctInOrder (l : list string) : list string :=
  match l with
  | [] => []
  | x :: l' => x :: filter (λ y, y ≠ x) (distinctInOrder l')
  end.

(** How many of the students carry the label [s]. *)
Definition studentsIn (s : string) (students : list Doc.t) : Z :=
  Z.of_nat (length (filter (λ st, sectionOf st = s) students)).

(** The sum of the counts held in a section map. *)
Definition sumEntries (m : JsMap.t Z) : Z :=
  foldr (λ kv acc, kv.2 + acc) 0 m.

Definition sumValues (l : list Slice) : Z :=
  foldr (λ e acc, value e + acc) 0 l.

Definition countsNonNegative (s : Stats) : Prop :=
  Forall (λ e, 0 ≤ value e)
         (sectionWiseStudents s ++ experimentProgress s ++ vivaProgress s).

(** The events a run adds to the trace of the world it starts from. *)
Definition newEvents (w : World) (r : Completion () * World) : list Event :=
  drop (length (trace w)) (trace r.2).

(** ** The pie chart of [PieChartCard]

    [data.map((entry, index) => <Cell key={`cell-${index}`} fill={entry.color} />)] *)

Record Cell := mkCell {
  key : string;
  fill : string
}.

Definition pieCells (data : list Slice) : list Cell :=
  imap (λ index entry,
          {| key := "cell-" +:+ pretty index; fill := color entry |})
       data.

(** ** Further notions *)

Definition isGetDocs (ev : Event) : bool :=
  match ev with EvGetDocs _ _ => true | _ => false end.

(** What a slice tells apart from its colour. *)
Definition labelCount (e : Slice) : string * Z := (name e, value e).

(** ** Concrete inputs *)

Definition initialWorld : World := {| stats := initialStats; trace := [] |}.

Definition aFaculty : UserProfile.t :=
  UserProfile.mk faculty "f1" None None.

Definition studentDoc (i : string) (fid : string) (sec : option string)
    (completed : option (list string)) : Doc.t :=
  Doc.mk i (Some fid) sec completed.

Definition experimentDoc (i : string) (fid : string) : Doc.t :=
  Doc.mk i (Some fid) None None.

(** Three students of [f1] (and one of somebody else), two experiments. *)
Definition threeStudents : list Doc.t :=
  [ studentDoc "s1" "f1" (Some "sectionA") (Some ["e1"]);
    studentDoc "s2" "f1" (Some "sectionA") (Some ["e1"; "e2"]);
    studentDoc "s9" "f2" (Some "sectionC") (Some ["e7"]);
    studentDoc "s3" "f1" (Some "sectionB") None ].

Definition twoExperiments : list Doc.t :=
  [ experimentDoc "e1" "f1"; experimentDoc "e7" "f2"; experimentDoc "e2" "f1" ].

Definition scenarioDb : Firestore := λ c,
  if decide (c = "students") then Normal threeStudents
  else if decide (c = "experiments") then Normal twoExperiments
  else Throw "no such collection".

(** A student with five completed experiments and two viva scores. *)
Definition aStudent : UserProfile.t :=
  UserProfile.mk student "s1" (Some ["e1"; "e2"; "e3"; "e4"; "e5"])
    (Some {[ "q1" := 7; "q2" := 9 ]}).

(** More completions than there are experiments to complete. *)
Definition overfullDb : Firestore := λ c,
  if decide (c = "students")
  then Normal [ studentDoc "s1" "f1" None (Some ["e1"; "e2"]) ]
  else Normal [].

Definition overfullStudent : UserProfile.t :=
  UserProfile.mk student "s1" (Some ["e1"; "e2"; "e3"; "e4"; "e5"; "e6"; "e7"])
    (Some {[ "q1" := 1; "q2" := 2; "q3" := 3; "q4" := 4; "q5" := 5; "q6" := 6 ]}).

(** The store is unreachable, or only its second collection is. *)
Definition failingDb : Firestore := λ _, Throw "unavailable".

Definition halfFailingDb : Firestore := λ c,
  if decide (c = "students") then Normal threeStudents else Throw "permission-denied".

(** Nine sections, one more than there are colours; two students carry no
    usable section. *)
Definition nineSections : list Doc.t :=
  [ studentDoc "s1" "f1" (Some "A") None;
    studentDoc "s2" "f1" (Some "B") None;
    studentDoc "s3" "f1" None None;
    studentDoc "s4" "f1" (Some "C") None;
    studentDoc "s5" "f1" (Some "A") None;
    studentDoc "s6" "f1" (Some "D") None;
    studentDoc "s7" "f1" (Some EmptyString) None;
    studentDoc "s8" "f1" (Some "E") None;
    studentDoc "s9" "f1" (Some "F") None;
    studentDoc "s10" "f1" (Some "G") None;
    studentDoc "s11" "f1" (Some "H") None ].

(** * Facts *)

(** ** [JsMap] *)

Section JsMap_facts.
Context {V : Type}.
Implicit Types (m : JsMap.t V) (k : string) (v : V).

Lemma get_None k m : JsMap.get k m = None ↔ k ∉ JsMap.keys m.
Proof.
  induction m as [|[k' v'] m IH]; simpl.
  - split; [intros _; apply not_elem_of_nil | done].
  - rewrite not_elem_of_cons. case_decide; simpl; [|tauto].
    split; [done | tauto].
Qed.

Lemma get_Some_elem k v m : JsMap.get k m = Some v → (k, v) ∈ JsMap.entries m.
Proof.
  induction m as [|[k' v'] m IH]; simpl; [done|].
  case_decide; intros Hg.
  - simplify_eq. apply elem_of_cons; by left.
  - apply elem_of_cons; right; auto.
Qed.

Lemma lookup_get m i k v :
  NoDup (JsMap.keys m) → JsMap.entries m !! i = Some (k, v) → JsMap.get k m = Some v.
Proof.
  revert i. induction m as [|[k' v'] m IH]; intros i Hnd Hi; [done|].
  apply NoDup_cons in Hnd as [Hk' Hnd]. simpl.
  destruct i as [|i]; simpl in Hi.
  - simplify_eq. by rewrite decide_True.
  - case_decide as Hk; [|by eapply IH].
    subst k'. exfalso. apply Hk'.
    apply (list_elem_of_fmap_2' fst _ (k, v)); [|done].
    apply list_elem_of_lookup; eauto.
Qed.

Lemma get_set_eq k v m : JsMap.get k (JsMap.set k v m) = Some v.
Proof.
  induction m as [|[k' v'] m IH]; simpl.
  - by rewrite decide_True.
  - do 2 (case_decide; simpl; try done).
Qed.

Lemma get_set_ne k k' v m : k ≠ k' → JsMap.get k' (JsMap.set k v m) = JsMap.get k' m.
Proof.
  intros Hne. induction m as [|[k0 v0] m IH]; simpl.
  - by rewrite decide_False.
  - case_decide as Hk; simpl; case_decide; by simplify_eq.
Qed.

(** A key already present keeps its place, a new one goes last. *)
Lemma keys_set_old k v m :
  k ∈ JsMap.keys m → JsMap.keys (JsMap.set k v m) = JsMap.keys m.
Proof.
  unfold JsMap.keys.
  induction m as [|[k' v'] m IH]; simpl; intros Hin.
  - by apply elem_of_nil in Hin.
  - case_decide as Hk; simpl; [done|].
    apply elem_of_cons in Hin as [?|Hin]; [done|].
    f_equal. by apply IH.
Qed.

Lemma keys_set_new k v m :
  k ∉ JsMap.keys m → JsMap.keys (JsMap.set k v m) = JsMap.keys m ++ [k].
Proof.
  unfold JsMap.keys.
  induction m as [|[k' v'] m IH]; simpl; intros Hin; [done|].
  apply not_elem_of_cons in Hin as [Hne Hin].
  rewrite decide_False by done. simpl. f_equal. by apply IH.
Qed.
End JsMap_facts.

(** ** First-encounter order *)

Lemma elem_of_distinctInOrder x l : x ∈ distinctInOrder l ↔ x ∈ l.
Proof.
  induction l as [|y l IH]; simpl; [done|].
  rewrite !elem_of_cons, list_elem_of_filter, IH.
  destruct (decide (x = y)); tauto.
Qed.

Lemma NoDup_distinctInOrder l : NoDup (distinctInOrder l).
Proof.
  induction l as [|y l IH]; simpl; [constructor|].
  apply NoDup_cons. split; [|by apply NoDup_filter].
  rewrite list_elem_of_filter. by intros [? _].
Qed.

(** ** The section map *)

Lemma sumEntries_set k v (m : JsMap.t Z) :
  sumEntries (JsMap.set k v m) = sumEntries m - default 0 (JsMap.get k m) + v.
Proof.
  induction m as [|[k' v'] m IH]; simpl; [lia|].
  case_decide; simpl; lia.
Qed.

Lemma sumEntries_countSection m st :
  sumEntries (countSection m st) = sumEntries m + 1.
Proof. unfold countSection. rewrite sumEntries_set. lia. Qed.

Lemma sumEntries_foldl students m :
  sumEntries (foldl countSection m students) = sumEntries m + Z.of_nat (length students).
Proof.
  revert m. induction students as [|st students IH]; intros m; simpl; [lia|].
  rewrite IH, sumEntries_countSection. lia.
Qed.

Lemma keys_countSection m st :
  JsMap.keys (countSection m st) =
    JsMap.keys m ++ filter (λ y, y ∉ JsMap.keys m) [sectionOf st].
Proof.
  unfold countSection.
  destruct (decide (sectionOf st ∈ JsMap.keys m)) as [Hin|Hin].
  - rewrite keys_set_old by done.
    rewrite filter_cons_False by tauto. by rewrite filter_nil, app_nil_r.
  - rewrite keys_set_new by done. by rewrite filter_cons_True.
Qed.

Lemma keys_foldl students m :
  JsMap.keys (foldl countSection m students) =
    JsMap.keys m ++
    filter (λ y, y ∉ JsMap.keys m) (distinctInOrder (sectionOf <$> students)).
Proof.
  revert m. induction students as [|st students IH]; intros m; simpl.
  - by rewrite filter_nil, app_nil_r.
  - rewrite IH, keys_countSection.
    set (D := distinctInOrder (sectionOf <$> students)).
    destruct (decide (sectionOf st ∈ JsMap.keys m)) as [Hin|Hin].
    + rewrite !(filter_cons_False _ (sectionOf st)) by tauto.
      rewrite filter_nil, app_nil_r, list_filter_filter.
      f_equal. apply list_filter_iff.
      intros y. split; [intros Hy; split; [done | congruence] | by intros [? _]].
    + rewrite !(filter_cons_True _ (sectionOf st)) by done.
      rewrite filter_nil, <- app_assoc. simpl. do 2 f_equal.
      rewrite list_filter_filter. apply list_filter_iff.
      intros y. rewrite not_elem_of_app, not_elem_of_cons. 
      split; [intros [? [? _]]|intros [? ?]]; repeat split; auto using not_elem_of_nil.
Qed.

Lemma filter_all (P : string → Prop) `{!∀ x, Decision (P x)} (l : list string) :
  (∀ x, P x) → filter P l = l.
Proof.
  intros HP. induction l as [|x l IH]; [done|].
  rewrite filter_cons_True by done. by rewrite IH.
Qed.

Lemma sectionMap_keys students :
  JsMap.keys (sectionMap students) = distinctInOrder (sectionOf <$> students).
Proof.
  unfold sectionMap. rewrite keys_foldl. simpl.
  apply filter_all. intros y. apply not_elem_of_nil.
Qed.

Lemma get_countSection s m st :
  default 0 (JsMap.get s (countSection m st)) =
    default 0 (JsMap.get s m) + (if decide (sectionOf st = s) then 1 else 0).
Proof.
  unfold countSection. case_decide as Hs.
  - subst s. by rewrite get_set_eq.
  - rewrite get_set_ne by done. lia.
Qed.

Lemma get_foldl s students m :
  default 0 (JsMap.get s (foldl countSection m students)) =
    default 0 (JsMap.get s m) + studentsIn s students.
Proof.
  unfold studentsIn.
  revert m. induction students as [|st students IH]; intros m; simpl; [lia|].
  rewrite IH, get_countSection, filter_cons.
  case_decide; simpl; lia.
Qed.

Lemma studentsIn_pos s students :
  s ∈ sectionOf <$> students → 1 ≤ studentsIn s students.
Proof.
  unfold studentsIn. intros (st & -> & Hst)%list_elem_of_fmap.
  assert (st ∈ filter (λ st', sectionOf st' = sectionOf st) students) as Hin
    by by apply list_elem_of_filter.
  destruct (filter _ students); [by apply elem_of_nil in Hin | simpl; lia].
Qed.

(** The map holds, for every label met, the number of students with it. *)
Lemma sectionMap_get s students :
  JsMap.get s (sectionMap students) =
    if decide (s ∈ sectionOf <$> students) then Some (studentsIn s students) else None.
Proof.
  case_decide as Hin.
  - destruct (JsMap.get s (sectionMap students)) as [v|] eqn:Hg.
    + f_equal. pose proof (get_foldl s students JsMap.empty) as H.
      fold (sectionMap students) in H. rewrite Hg in H. simpl in H. lia.
    + apply get_None in Hg. rewrite sectionMap_keys in Hg.
      by rewrite elem_of_distinctInOrder in Hg.
  - apply get_None. by rewrite sectionMap_keys, elem_of_distinctInOrder.
Qed.

(** ** The slices made from the map *)

Lemma colors_lookup k :
  colors !! (k mod length colors)%nat = Some (nth (k mod length colors)%nat colors EmptyString).
Proof.
  destruct (nth_lookup_or_length colors (k mod length colors)%nat EmptyString) as [H|H]; [done|].
  pose proof (Nat.mod_upper_bound k (length colors)) as Hlt.
  simpl in *. lia.
Qed.

Lemma fmap_name_imap (f : nat → string * Z → Slice) (m : JsMap.t Z) :
  (∀ i kv, name (f i kv) = kv.1) → name <$> imap f m = JsMap.keys m.
Proof.
  revert f. induction m as [|kv m IH]; intros f Hf; [done|].
  unfold JsMap.keys. simpl. rewrite Hf. f_equal.
  apply IH. intros i kv'. apply Hf.
Qed.

Lemma sumValues_imap (f : nat → string * Z → Slice) (m : JsMap.t Z) :
  (∀ i kv, value (f i kv) = kv.2) → sumValues (imap f m) = sumEntries m.
Proof.
  revert f. induction m as [|kv m IH]; intros f Hf; [done|].
  simpl. rewrite Hf. f_equal.
  apply IH. intros i kv'. apply Hf.
Qed.

Lemma sectionData_names students :
  name <$> sectionData students = distinctInOrder (sectionOf <$> students).
Proof.
  unfold sectionData, JsMap.entries.
  rewrite fmap_name_imap by (by intros i [??]).
  apply sectionMap_keys.
Qed.

Lemma sectionData_sum students :
  sumValues (sectionData students) = Z.of_nat (length students).
Proof.
  unfold sectionData, JsMap.entries.
  rewrite sumValues_imap by (by intros i [??]).
  unfold sectionMap. by rewrite sumEntries_foldl.
Qed.

(** The entry at index [k] is the [k]-th entry of the map, with the colour
    [colors[k % colors.length]]. *)
Lemma sectionData_lookup students k e :
  sectionData students !! k = Some e →
  JsMap.entries (sectionMap students) !! k = Some (name e, value e) ∧
  colors !! (k mod length colors)%nat = Some (color e).
Proof.
  unfold sectionData. rewrite list_lookup_imap.
  destruct (JsMap.entries (sectionMap students) !! k) as [[s c]|]; [|done].
  simpl. intros [= <-]. simpl. split; [done | apply colors_lookup].
Qed.

Lemma sectionData_value students k e :
  sectionData students !! k = Some e →
  value e = studentsIn (name e) students ∧ 1 ≤ value e.
Proof.
  intros [He _]%sectionData_lookup.
  apply lookup_get in He;
    [|rewrite sectionMap_keys; apply NoDup_distinctInOrder].
  rewrite sectionMap_get in He. case_decide as Hin; [|done].
  injection He as <-. split; [done | by apply studentsIn_pos].
Qed.

Lemma sectionData_entry s students :
  s ∈ sectionOf <$> students →
  ∃ e, e ∈ sectionData students ∧ name e = s ∧ value e = studentsIn s students.
Proof.
  intros Hin.
  pose proof (sectionMap_get s students) as Hg. rewrite decide_True in Hg by done.
  apply get_Some_elem, list_elem_of_lookup in Hg as [k Hk].
  exists {| name := s; value := studentsIn s students;
            color := nth (k mod length colors)%nat colors EmptyString |}.
  split; [|done].
  unfold sectionData.
  apply (elem_of_lookup_imap_2
           (λ index '(section, count),
              {| name := section; value := count;
                 color := nth (index mod length colors)%nat colors EmptyString |})) in Hk.
  exact Hk.
Qed.

(** ** The totals *)

Lemma totalCompletions_sum students :
  totalCompletions students =
    Z.of_nat (sum_list_with (λ st, length (default [] (Doc.experimentsCompleted st)))
                            students).
Proof.
  unfold totalCompletions.
  enough (∀ a, foldl (λ acc st, acc + completionsOf st) a students =
               a + Z.of_nat (sum_list_with
                      (λ st, length (default [] (Doc.experimentsCompleted st))) students))
    as H by (rewrite H; lia).
  induction students as [|st students IH]; intros a; simpl; [lia|].
  rewrite IH. unfold completionsOf. lia.
Qed.

Lemma facultyStats_nonneg students experiments :
  countsNonNegative (facultyStats students experiments).
Proof.
  unfold countsNonNegative. simpl. rewrite !Forall_app. split_and!.
  - apply Forall_lookup. intros k e He.
    apply sectionData_value in He. lia.
  - repeat first [apply Forall_nil_2 | apply Forall_cons_2]; simpl;
      rewrite ?totalCompletions_sum; lia.
Qed.

Lemma studentStats_nonneg userProfile :
  countsNonNegative (studentStats userProfile).
Proof.
  unfold countsNonNegative, studentStats, Object_keys_length. simpl.
  repeat first [apply Forall_nil_2 | apply Forall_cons_2]; simpl; try lia.
  destruct (UserProfile.experimentsCompleted userProfile); lia.
Qed.

(** ** What a run of [fetchStats] does, case by case *)

Section fetchStats_cases.
Variables (db : Firestore) (userProfile : UserProfile.t) (w : World).

Lemma fetchStats_None : fetchStats db None w = (Normal (), w).
Proof. done. Qed.

Lemma fetchStats_student :
  UserProfile.role userProfile = student →
  fetchStats db (Some userProfile) w =
    (Normal (),
     {| stats := studentStats userProfile;
        trace := trace w ++ [EvSetStats (studentStats userProfile)] |}).
Proof. intros Hrole. unfold fetchStats. by rewrite Hrole. Qed.

Lemma fetchStats_faculty studentDocs experimentDocs :
  UserProfile.role userProfile = faculty →
  db "students" = Normal studentDocs →
  db "experiments" = Normal experimentDocs →
  let uid := UserProfile.uid userProfile in
  let s := facultyStats (matching uid studentDocs) (matching uid experimentDocs) in
  fetchStats db (Some userProfile) w =
    (Normal (),
     {| stats := s;
        trace := trace w ++
          [EvGetDocs "students" uid; EvGetDocs "experiments" uid; EvSetStats s] |}).
Proof.
  intros Hrole Hs He. unfold fetchStats, try_catch, mbind, M_bind, getDocs, setStats.
  rewrite Hrole, Hs, He. simpl. by rewrite <- !app_assoc.
Qed.

Lemma fetchStats_students_throw error :
  UserProfile.role userProfile = faculty →
  db "students" = Throw error →
  fetchStats db (Some userProfile) w =
    (Normal (),
     {| stats := stats w;
        trace := trace w ++
          [EvGetDocs "students" (UserProfile.uid userProfile);
           EvConsoleError "Error fetching stats:" error] |}).
Proof.
  intros Hrole Hs.
  unfold fetchStats, try_catch, mbind, M_bind, getDocs, console_error, emit.
  rewrite Hrole, Hs. simpl. by rewrite <- !app_assoc.
Qed.

Lemma fetchStats_experiments_throw studentDocs error :
  UserProfile.role userProfile = faculty →
  db "students" = Normal studentDocs →
  db "experiments" = Throw error →
  fetchStats db (Some userProfile) w =
    (Normal (),
     {| stats := stats w;
        trace := trace w ++
          [EvGetDocs "students" (UserProfile.uid userProfile);
           EvGetDocs "experiments" (UserProfile.uid userProfile);
           EvConsoleError "Error fetching stats:" error] |}).
Proof.
  intros Hrole Hs He.
  unfold fetchStats, try_catch, mbind, M_bind, getDocs, console_error, emit.
  rewrite Hrole, Hs, He. simpl. by rewrite <- !app_assoc.
Qed.
End fetchStats_cases.

Lemma newEvents_app w r evs :
  trace r.2 = trace w ++ evs → newEvents w r = evs.
Proof. unfold newEvents. intros ->. apply drop_app_length. Qed.

(** From an equation [Hrun : fetchStats .. w = (_, w')] with an explicit
    trace, turn membership in the new events into a disjunction. *)
Ltac new_events Hrun :=
  rewrite (newEvents_app _ _ _ (f_equal (trace ∘ snd) Hrun));
  rewrite !elem_of_cons, ?elem_of_nil.

(** * The claims *)

(** C1. On the faculty path, with both queries answered, [fetchStats] sets
    [totalStudents] to the number of matched student records,
    [totalExperiments] to the number of matched experiment records,
    [completedExperiments] to the sum of the lengths of the students'
    [experimentsCompleted] (an absent one counting as empty), and the
    experiment progress to the two entries [Completed = completedExperiments]
    and [Pending = max(0, totalStudents * totalExperiments -
    completedExperiments)].  Three students with lists of length 1, 2, 0 and
    two experiments give 3, 2, 3 and [Completed = 3, Pending = 3]. *)
Theorem C1_faculty_aggregation db userProfile w studentDocs experimentDocs :
  UserProfile.role userProfile = faculty →
  db "students" = Normal studentDocs →
  db "experiments" = Normal experimentDocs →
  let students := matching (UserProfile.uid userProfile) studentDocs in
  let experiments := matching (UserProfile.uid userProfile) experimentDocs in
  let completed :=
    Z.of_nat (sum_list_with
                (λ st, length (default [] (Doc.experimentsCompleted st))) students) in
  ∃ w', fetchStats db (Some userProfile) w = (Normal (), w') ∧
    totalStudents (stats w') = Z.of_nat (length students) ∧
    totalExperiments (stats w') = Z.of_nat (length experiments) ∧
    completedExperiments (stats w') = completed ∧
    experimentProgress (stats w') =
      [ {| name := "Completed"; value := completed; color := "#10B981" |};
        {| name := "Pending";
           value := Z.max 0 (Z.of_nat (length students) * Z.of_nat (length experiments)
                             - completed);
           color := "#F59E0B" |} ].
Proof.
  intros Hrole Hs He students experiments completed.
  eexists. split; [by apply fetchStats_faculty|].
  simpl. fold students experiments.
  rewrite totalCompletions_sum. by fold completed.
Qed.

Lemma C1_scenario :
  ∃ w', fetchStats scenarioDb (Some aFaculty) initialWorld = (Normal (), w') ∧
    totalStudents (stats w') = 3 ∧
    totalExperiments (stats w') = 2 ∧
    completedExperiments (stats w') = 3 ∧
    experimentProgress (stats w') =
      [ {| name := "Completed"; value := 3; color := "#10B981" |};
        {| name := "Pending"; value := 3; color := "#F59E0B" |} ].
Proof.
  destruct (C1_faculty_aggregation scenarioDb aFaculty initialWorld
              threeStudents twoExperiments eq_refl eq_refl eq_refl)
    as (w' & Hrun & H1 & H2 & H3 & H4).
  exists w'. repeat split; assumption.
Defined.

(** C2. On the student path [fetchStats] sets [completedExperiments] to the
    length of the profile's [experimentsCompleted] (0 if absent),
    [vivaAttempts] to the number of keys of its [vivaScores] (0 if absent),
    [totalExperiments] to 5, the experiment progress to [Completed,
    Remaining = max(0, 5 - completedExperiments)] and the viva progress to
    [Attempted, Remaining = max(0, 5 - vivaAttempts)].  Five completed
    experiments and two scores give 5, 2, [Completed = 5, Remaining = 0] and
    [Attempted = 2, Remaining = 3]. *)
Theorem C2_student_aggregation db userProfile w :
  UserProfile.role userProfile = student →
  let completed :=
    Z.of_nat (length (default [] (UserProfile.experimentsCompleted userProfile))) in
  let attempts :=
    Z.of_nat (size (dom (default ∅ (UserProfile.vivaScores userProfile)) : gset string)) in
  ∃ w', fetchStats db (Some userProfile) w = (Normal (), w') ∧
    completedExperiments (stats w') = completed ∧
    vivaAttempts (stats w') = attempts ∧
    totalExperiments (stats w') = 5 ∧
    experimentProgress (stats w') =
      [ {| name := "Completed"; value := completed; color := "#10B981" |};
        {| name := "Remaining"; value := Z.max 0 (5 - completed); color := "#F59E0B" |} ] ∧
    vivaProgress (stats w') =
      [ {| name := "Attempted"; value := attempts; color := "#3B82F6" |};
        {| name := "Remaining"; value := Z.max 0 (5 - attempts); color := "#E5E7EB" |} ].
Proof.
  intros Hrole completed attempts.
  eexists. split; [by apply fetchStats_student|].
  subst completed attempts. simpl. unfold Object_keys_length.
  rewrite size_dom.
  by destruct (UserProfile.experimentsCompleted userProfile).
Qed.

Lemma C2_scenario :
  ∃ w', fetchStats scenarioDb (Some aStudent) initialWorld = (Normal (), w') ∧
    completedExperiments (stats w') = 5 ∧
    vivaAttempts (stats w') = 2 ∧
    totalExperiments (stats w') = 5 ∧
    experimentProgress (stats w') =
      [ {| name := "Completed"; value := 5; color := "#10B981" |};
        {| name := "Remaining"; value := 0; color := "#F59E0B" |} ] ∧
    vivaProgress (stats w') =
      [ {| name := "Attempted"; value := 2; color := "#3B82F6" |};
        {| name := "Remaining"; value := 3; color := "#E5E7EB" |} ].
Proof.
  destruct (C2_student_aggregation scenarioDb aStudent initialWorld eq_refl)
    as (w' & Hrun & H1 & H2 & H3 & H4 & H5).
  exists w'. vm_compute in H1, H2, H4, H5. repeat split; assumption.
Defined.

(** C3. For every list of student records on the faculty path the counts of
    the section breakdown add up to [totalStudents], the number of student
    records; the labels of the breakdown are pairwise distinct and the
    label of every student is among them, so that each student is counted
    in exactly one entry. *)
Theorem C3_section_counts_sum students experiments :
  let s := facultyStats students experiments in
  sumValues (sectionWiseStudents s) = totalStudents s ∧
  totalStudents s = Z.of_nat (length students) ∧
  NoDup (name <$> sectionWiseStudents s) ∧
  Forall (λ st, sectionOf st ∈ name <$> sectionWiseStudents s) students.
Proof.
  simpl. rewrite sectionData_names. split_and!; [apply sectionData_sum | done | |].
  - apply NoDup_distinctInOrder.
  - apply Forall_forall. intros st Hst.
    by apply elem_of_distinctInOrder, list_elem_of_fmap_2.
Qed.

(** C7. On the faculty path, whatever the queries return, [vivaAttempts] is 0
    and the viva progress is the two fixed entries [Attempted = 30] and
    [Not Attempted = 70]. *)
Theorem C7_faculty_viva_placeholder db userProfile w studentDocs experimentDocs :
  UserProfile.role userProfile = faculty →
  db "students" = Normal studentDocs →
  db "experiments" = Normal experimentDocs →
  ∃ w', fetchStats db (Some userProfile) w = (Normal (), w') ∧
    vivaAttempts (stats w') = 0 ∧
    vivaProgress (stats w') =
      [ {| name := "Attempted"; value := 30; color := "#3B82F6" |};
        {| name := "Not Attempted"; value := 70; color := "#E5E7EB" |} ].
Proof.
  intros Hrole Hs He.
  eexists. split; [by apply fetchStats_faculty|]. done.
Qed.

Lemma C7_scenario :
  ∃ w', fetchStats scenarioDb (Some aFaculty) initialWorld = (Normal (), w') ∧
    vivaAttempts (stats w') = 0 ∧
    vivaProgress (stats w') =
      [ {| name := "Attempted"; value := 30; color := "#3B82F6" |};
        {| name := "Not Attempted"; value := 70; color := "#E5E7EB" |} ].
Proof.
  exact (C7_faculty_viva_placeholder scenarioDb aFaculty initialWorld
           threeStudents twoExperiments eq_refl eq_refl eq_refl).
Defined.

(** ** Which view models a run can produce *)

Lemma fetchStats_produces db userProfile w s :
  EvSetStats s ∈ newEvents w (fetchStats db userProfile w) →
  (∃ p, userProfile = Some p ∧ UserProfile.role p = student ∧ s = studentStats p) ∨
  (∃ p studentDocs experimentDocs,
      userProfile = Some p ∧ UserProfile.role p = faculty ∧
      db "students" = Normal studentDocs ∧ db "experiments" = Normal experimentDocs ∧
      s = facultyStats (matching (UserProfile.uid p) studentDocs)
                       (matching (UserProfile.uid p) experimentDocs)).
Proof.
  destruct userProfile as [p|].
  2:{ rewrite fetchStats_None. unfold newEvents. simpl.
      rewrite drop_all. by intros ?%elem_of_nil. }
  destruct (UserProfile.role p) eqn:Hrole.
  - destruct (db "students") as [studentDocs|error] eqn:Hs.
    + destruct (db "experiments") as [experimentDocs|error] eqn:He.
      * new_events (fetchStats_faculty db p w _ _ Hrole Hs He).
        intros [?|[?|[[= ->]|[]]]]; try done.
        right. by exists p, studentDocs, experimentDocs.
      * new_events (fetchStats_experiments_throw db p w _ _ Hrole Hs He).
        by intros [?|[?|[?|[]]]].
    + new_events (fetchStats_students_throw db p w _ Hrole Hs).
      by intros [?|[?|[]]].
  - new_events (fetchStats_student db p w Hrole).
    intros [[= ->]|[]]. left. by exists p.
Qed.

(** C4. Every count in a breakdown list of a view model that [fetchStats]
    hands to [setStats] is non-negative, whatever the profile, the store and
    the previous state: [Pending] and both [Remaining] entries are
    [Math.max(0, ...)], and they are 0 when the completions exceed
    [totalStudents * totalExperiments], or the completions or the viva
    attempts exceed 5. *)
Theorem C4_counts_nonnegative db userProfile w s :
  EvSetStats s ∈ newEvents w (fetchStats db userProfile w) →
  countsNonNegative s ∧
  (∀ e, e ∈ experimentProgress s → name e = "Pending" →
        totalStudents s * totalExperiments s < completedExperiments s → value e = 0) ∧
  (∀ e, e ∈ experimentProgress s → name e = "Remaining" →
        5 < completedExperiments s → value e = 0) ∧
  (∀ e, e ∈ vivaProgress s → name e = "Remaining" →
        5 < vivaAttempts s → value e = 0).
Proof.
  intros [(p & _ & _ & ->)|(p & sd & ed & _ & _ & _ & _ & ->)]%fetchStats_produces.
  - split; [apply studentStats_nonneg|].
    split_and!; intros e He Hname Hlt; simpl in *;
      apply elem_of_cons in He as [->|He]; try discriminate Hname;
      apply elem_of_cons in He as [->|He%elem_of_nil]; try done;
      simpl in *; lia.
  - split; [apply facultyStats_nonneg|].
    split_and!; intros e He Hname Hlt; simpl in *;
      apply elem_of_cons in He as [->|He]; try discriminate Hname;
      apply elem_of_cons in He as [->|He%elem_of_nil]; try done;
      simpl in *; lia.
Qed.

Lemma C4_overfull :
  ∃ s, completedExperiments s = 2 ∧
       totalStudents s * totalExperiments s = 0 ∧
       experimentProgress s =
         [ {| name := "Completed"; value := 2; color := "#10B981" |};
           {| name := "Pending"; value := 0; color := "#F59E0B" |} ] ∧
       countsNonNegative s.
Proof.
  exists (facultyStats (matching "f1" [studentDoc "s1" "f1" None (Some ["e1"; "e2"])]) []).
  split_and!; [reflexivity..|].
  apply (C4_counts_nonnegative overfullDb (Some aFaculty) initialWorld).
  vm_compute. do 2 apply list_elem_of_further. apply list_elem_of_here.
Defined.

(** The student path clamps as well. *)
Example student_remaining_clamped :
  experimentProgress (studentStats overfullStudent) =
    [ {| name := "Completed"; value := 7; color := "#10B981" |};
      {| name := "Remaining"; value := 0; color := "#F59E0B" |} ] ∧
  vivaProgress (studentStats overfullStudent) =
    [ {| name := "Attempted"; value := 6; color := "#3B82F6" |};
      {| name := "Remaining"; value := 0; color := "#E5E7EB" |} ].
Proof. split; vm_compute; reflexivity. Qed.

(** ** Students without a usable section *)

Lemma sectionOf_Unknown st :
  sectionOf st = "Unknown" ↔ Doc.section st ∈ [None; Some EmptyString; Some "Unknown"].
Proof.
  unfold sectionOf. rewrite !elem_of_cons, elem_of_nil.
  destruct (Doc.section st) as [s|]; [|split; auto].
  case_decide as Hs; [subst s; split; auto|].
  split.
  - intros ->. auto.
  - intros [?|[?|[?|[]]]]; by simplify_eq.
Qed.

Lemma sectionOf_nonempty st : sectionOf st ≠ EmptyString.
Proof.
  unfold sectionOf. destruct (Doc.section st) as [s|]; [|done].
  by case_decide.
Qed.

(** C5. A student whose [section] is absent or the empty string falls under
    the label ["Unknown"]: the section breakdown has an entry with that
    label, which counts exactly the students whose section is absent, empty
    or literally ["Unknown"], and no entry is labelled with the empty
    string. *)
Theorem C5_missing_section_is_Unknown students st :
  st ∈ students →
  Doc.section st = None ∨ Doc.section st = Some EmptyString →
  sectionOf st = "Unknown" ∧
  ∃ e, e ∈ sectionData students ∧
       name e = "Unknown" ∧
       value e = Z.of_nat (length (filter
                   (λ s, Doc.section s ∈ [None; Some EmptyString; Some "Unknown"]) students)) ∧
       ∀ e', e' ∈ sectionData students → name e' ≠ EmptyString.
Proof.
  intros Hst Hsec.
  assert (sectionOf st = "Unknown") as HU.
  { apply sectionOf_Unknown. rewrite !elem_of_cons. destruct Hsec as [->| ->]; auto. }
  split; [done|].
  destruct (sectionData_entry "Unknown" students) as (e & He & Hn & Hv).
  { rewrite <- HU. by apply list_elem_of_fmap_2. }
  exists e. split_and!; [done..| |].
  - rewrite Hv. unfold studentsIn. do 2 f_equal.
    apply list_filter_iff, sectionOf_Unknown.
  - intros e' He' Hempty.
    apply (list_elem_of_fmap_2 name) in He'.
    rewrite sectionData_names, elem_of_distinctInOrder, Hempty in He'.
    apply list_elem_of_fmap in He' as (st' & Heq & _).
    by eapply sectionOf_nonempty.
Qed.

Lemma C5_nineSections :
  ∃ e, e ∈ sectionData nineSections ∧ name e = "Unknown" ∧ value e = 2.
Proof.
  destruct (C5_missing_section_is_Unknown nineSections
              (studentDoc "s7" "f1" (Some EmptyString) None)) as (_ & e & He & Hn & Hv & _).
  - do 6 apply list_elem_of_further. apply list_elem_of_here.
  - right. reflexivity.
  - exists e. vm_compute in Hv. by split_and!.
Defined.

(** C6. The section breakdown has one entry per distinct section label, in
    the order in which the labels are first met, and the entry at index [k]
    (counting from 0) has the colour [colors[k mod 8]] of the palette of
    eight, so that the ninth label gets the first colour again. *)
Theorem C6_sections_in_order_with_palette students :
  name <$> sectionData students = distinctInOrder (sectionOf <$> students) ∧
  NoDup (name <$> sectionData students) ∧
  (∀ s, s ∈ name <$> sectionData students ↔ s ∈ sectionOf <$> students) ∧
  length colors = 8%nat ∧
  ∀ k e, sectionData students !! k = Some e →
    colors !! (k mod 8)%nat = Some (color e) ∧
    value e = studentsIn (name e) students.
Proof.
  rewrite sectionData_names. split_and!; [done| | |done|].
  - apply NoDup_distinctInOrder.
  - intros s. apply elem_of_distinctInOrder.
  - intros k e He. split.
    + by apply sectionData_lookup in He as [_ ?].
    + by apply sectionData_value in He as [? _].
Qed.

Lemma C6_ninth_section :
  name <$> sectionData nineSections =
    ["A"; "B"; "Unknown"; "C"; "D"; "E"; "F"; "G"; "H"] ∧
  ∃ e, sectionData nineSections !! 8%nat = Some e ∧
       name e = "H" ∧ color e = "#3B82F6" ∧
       colors !! 0%nat = Some (color e).
Proof.
  destruct (C6_sections_in_order_with_palette nineSections) as (Hn & _ & _ & _ & Hc).
  split; [by rewrite Hn|].
  eexists. split; [reflexivity|]. split_and!; [reflexivity..|].
  apply (Hc 8%nat). reflexivity.
Defined.

(** [fetchStats] never throws: whatever happens inside ends in the [catch]. *)
Lemma fetchStats_returns db userProfile w :
  (fetchStats db userProfile w).1 = Normal ().
Proof.
  destruct userProfile as [p|]; [|done].
  destruct (UserProfile.role p) eqn:Hrole.
  - destruct (db "students") as [studentDocs|error] eqn:Hs.
    + destruct (db "experiments") as [experimentDocs|error] eqn:He.
      * by erewrite fetchStats_faculty.
      * by erewrite fetchStats_experiments_throw.
    + by erewrite fetchStats_students_throw.
  - by rewrite fetchStats_student.
Qed.

(** C8. When one of the two queries throws, [fetchStats] returns normally,
    the last thing it does is to log the error, it never calls [setStats],
    and the view model is the one before the call, [initialStats] on first
    load. *)
Theorem C8_query_failure_keeps_stats db userProfile w error :
  UserProfile.role userProfile = faculty →
  db "students" = Throw error ∨
    (∃ studentDocs, db "students" = Normal studentDocs ∧ db "experiments" = Throw error) →
  ∃ w', fetchStats db (Some userProfile) w = (Normal (), w') ∧
    stats w' = stats w ∧
    last (trace w') = Some (EvConsoleError "Error fetching stats:" error) ∧
    ∀ s, EvSetStats s ∉ newEvents w (fetchStats db (Some userProfile) w).
Proof.
  intros Hrole [Hs|(studentDocs & Hs & He)].
  - pose proof (fetchStats_students_throw db userProfile w error Hrole Hs) as Hrun.
    eexists. split; [exact Hrun|]. split_and!; [done| |].
    + simpl. by rewrite (last_app_cons _ [_]).
    + intros s. new_events Hrun. by intros [?|[?|[]]].
  - pose proof (fetchStats_experiments_throw db userProfile w _ error Hrole Hs He) as Hrun.
    eexists. split; [exact Hrun|]. split_and!; [done| |].
    + simpl. by rewrite (last_app_cons _ [_; _]).
    + intros s. new_events Hrun. by intros [?|[?|[?|[]]]].
Qed.

Lemma C8_first_load :
  ∃ w', fetchStats halfFailingDb (Some aFaculty) initialWorld = (Normal (), w') ∧
    stats w' = initialStats ∧
    last (trace w') = Some (EvConsoleError "Error fetching stats:" "permission-denied").
Proof.
  destruct (C8_query_failure_keeps_stats halfFailingDb aFaculty initialWorld
              "permission-denied" eq_refl) as (w' & Hrun & Hstats & Hlast & _).
  - right. exists threeStudents. split; reflexivity.
  - exists w'. by split_and!.
Defined.

(** C9. Without a profile [fetchStats] returns at once: the world is the one
    it was called in, so no query is issued and [setStats] is not called, and
    the component renders [null]. *)
Theorem C9_no_profile db w s :
  fetchStats db None w = (Normal (), w) ∧
  newEvents w (fetchStats db None w) = [] ∧
  Dashboard None s = None.
Proof.
  split_and!; [done| |done].
  apply newEvents_app. simpl. by rewrite app_nil_r.
Qed.

(** ** The success rate *)

Lemma successRate_zero_total s :
  totalExperiments s = 0 → Number.is_finite (successRate s) = false.
Proof.
  intros H0. unfold successRate, Number.div. rewrite H0. simpl.
  destruct (decide (completedExperiments s = 0)); [done|].
  by destruct (decide (0 < completedExperiments s)).
Qed.

(** *** Rounding to binary64 *)

Lemma roundHalfEven_bounds x :
  (inject_Z (Number.roundHalfEven x) - (1 # 2) <= x <=
   inject_Z (Number.roundHalfEven x) + (1 # 2))%Q.
Proof.
  unfold Number.roundHalfEven.
  pose proof (Qfloor_le x) as Hlo. pose proof (Qlt_floor x) as Hhi.
  rewrite inject_Z_plus in Hhi. change (inject_Z 1) with 1%Q in Hhi.
  destruct (Qcompare_spec (x - inject_Z (Qfloor x)) (1 # 2)) as [He|Hl|Hg].
  - destruct (Z.even (Qfloor x)); rewrite ?inject_Z_plus;
      change (inject_Z 1) with 1%Q; lra.
  - lra.
  - rewrite inject_Z_plus. change (inject_Z 1) with 1%Q. lra.
Qed.

Lemma pow2_pos s : (0 < Number.pow2 s)%Q.
Proof. apply Qpower_0_lt. reflexivity. Qed.

Lemma pow2_52 e : (Number.pow2 (e - 52) * inject_Z (2 ^ 52) == Number.pow2 e)%Q.
Proof.
  unfold Number.pow2. rewrite Zpower_Qpower by lia.
  change (inject_Z 2) with 2%Q. rewrite <- Qpower_plus by done.
  by replace (e - 52 + 52) with e by lia.
Qed.

Lemma pow2_floor_log2 q :
  (1 <= q)%Q → 0 ≤ Z.log2 (Qfloor q) ∧ (Number.pow2 (Z.log2 (Qfloor q)) <= q)%Q.
Proof.
  intros Hq. split; [apply Z.log2_nonneg|].
  assert (1 ≤ Qfloor q) as Hf by (rewrite <- (Qfloor_Z 1); by apply Qfloor_resp_le).
  destruct (Z.log2_spec (Qfloor q)) as [Hlo _]; [lia|].
  unfold Number.pow2. change 2%Q with (inject_Z 2).
  rewrite <- Zpower_Qpower by apply Z.log2_nonneg.
  eapply Qle_trans; [|apply Qfloor_le]. by rewrite <- Zle_Qle.
Qed.

(** From 1 on, rounding moves a number by at most the unit roundoff,
    relatively. *)
Lemma nearest_bounds q :
  (1 <= q)%Q →
  (q * (1 - Number.unitRoundoff) <= Number.nearest q <=
   q * (1 + Number.unitRoundoff))%Q.
Proof.
  intros Hq. unfold Number.nearest, Number.exponent.
  rewrite (proj2 (Qle_bool_iff 1 q) Hq).
  destruct (pow2_floor_log2 q Hq) as [He Hpe].
  set (e := Z.log2 (Qfloor q)) in *.
  rewrite Z.max_l by lia.
  pose proof (pow2_pos (e - 52)) as HP. pose proof (pow2_52 e) as HPe.
  set (P := Number.pow2 (e - 52)) in *.
  pose proof (roundHalfEven_bounds (q / P)) as [Hlo Hhi].
  set (m := inject_Z (Number.roundHalfEven (q / P))) in *.
  assert (q / P * P == q)%Q as Hx by (field; lra).
  change (inject_Z (2 ^ 52)) with (4503599627370496 # 1) in HPe.
  rewrite <- HPe in Hpe.
  apply (Qmult_le_compat_r _ _ P) in Hlo, Hhi; try lra.
  rewrite Hx in Hlo, Hhi. unfold Number.unitRoundoff. lra.
Qed.

Lemma pow2_1024_big : (36893488147419103232 < Number.pow2 1024)%Q.
Proof. reflexivity. Qed.

Lemma binary64_normal q :
  (1 <= q)%Q → (q <= 18446744073709551616)%Q →
  Number.binary64 q = Number.Finite (Number.nearest q).
Proof.
  intros Hlo Hhi. unfold Number.binary64.
  assert (0 < q)%Q as Hpos by lra.
  rewrite (proj1 (Qgt_alt q 0) Hpos).
  destruct (Qle_bool (Number.pow2 1024) (Number.nearest q)) eqn:Hov; [|done].
  apply Qle_bool_iff in Hov.
  pose proof (nearest_bounds q Hlo) as [_ Hn].
  pose proof pow2_1024_big. unfold Number.unitRoundoff in Hn. lra.
Qed.

Lemma binary64_not_NaN q : Number.binary64 q ≠ Number.NaN.
Proof.
  unfold Number.binary64.
  destruct (q ?= 0)%Q; [done| |];
    by destruct (Qle_bool _ _).
Qed.

Lemma div_not_NaN x y : y ≠ 0 → Number.div x y ≠ Number.NaN.
Proof.
  intros Hy. unfold Number.div. rewrite decide_False by done.
  apply binary64_not_NaN.
Qed.

Lemma Qfloor_unique (y : Q) (z : Z) :
  (inject_Z z <= y)%Q → (y < inject_Z z + 1)%Q → Qfloor y = z.
Proof.
  intros Hlo Hhi. apply Z.le_antisymm.
  - apply Z.lt_succ_r. rewrite Zlt_Qlt.
    eapply Qle_lt_trans; [apply Qfloor_le|].
    unfold Z.succ. rewrite inject_Z_plus. exact Hhi.
  - rewrite <- (Qfloor_Z z). by apply Qfloor_resp_le.
Qed.

(** Two roundings of a quotient by 5 of an array length stay well within
    half a unit of the exact [20 * c]. *)
Lemma round_mul_div_five c :
  5 ≤ c ≤ Array_maxLength →
  Number.round (Number.mul (Number.div c 5) 100) = Number.of_Z (20 * c).
Proof.
  unfold Array_maxLength. intros [Hlo Hhi].
  unfold Number.div. rewrite decide_False by done.
  rewrite Zle_Qle in Hlo. rewrite Zle_Qle in Hhi.
  set (C := inject_Z c) in *.
  change (inject_Z 5) with 5%Q in *.
  change (inject_Z 4294967295) with 4294967295%Q in *.
  assert (C / 5 == C * (1 # 5))%Q as Hq by (field; done).
  set (q := (C / 5)%Q) in *.
  rewrite binary64_normal by lra. cbn [Number.mul].
  pose proof (nearest_bounds q) as [H1lo H1hi]; [lra|].
  set (r1 := Number.nearest q) in *. unfold Number.unitRoundoff in *.
  change (inject_Z 100) with 100%Q.
  rewrite binary64_normal by lra. cbn [Number.round].
  pose proof (nearest_bounds (r1 * 100)) as [H2lo H2hi]; [lra|].
  set (r2 := Number.nearest (r1 * 100)) in *. unfold Number.unitRoundoff in *.
  unfold Number.of_Z. do 2 f_equal.
  apply Qfloor_unique; rewrite inject_Z_mult; fold C;
    change (inject_Z 20) with 20%Q; lra.
Qed.

Lemma round_mul_div_five_small c :
  0 ≤ c < 5 →
  Number.round (Number.mul (Number.div c 5) 100) = Number.of_Z (20 * c).
Proof.
  intros Hc.
  assert (c = 0 ∨ c = 1 ∨ c = 2 ∨ c = 3 ∨ c = 4) as [->|[->|[->|[->| ->]]]] by lia;
    by vm_compute.
Qed.

Lemma successRate_five s :
  totalExperiments s = 5 →
  0 ≤ completedExperiments s ≤ Array_maxLength →
  successRate s = Number.of_Z (20 * completedExperiments s).
Proof.
  intros H5 Hc. unfold successRate. rewrite H5.
  destruct (decide (completedExperiments s < 5)).
  - apply round_mul_div_five_small. lia.
  - apply round_mul_div_five. lia.
Qed.

(** The rounding shows: [23 / 40] is a little below [0.575] in binary64 and
    so is its product with 100, which is rounded to 57 and not to 58. *)
Example successRate_23_of_40 :
  successRate {| totalStudents := 1; totalExperiments := 40;
                 completedExperiments := 23; vivaAttempts := 0;
                 sectionWiseStudents := []; experimentProgress := [];
                 vivaProgress := [] |} = Number.of_Z 57.
Proof. by vm_compute. Qed.

Lemma studentStats_completed_range userProfile :
  0 ≤ completedExperiments (studentStats userProfile).
Proof.
  simpl. destruct (UserProfile.experimentsCompleted userProfile); lia.
Qed.

Lemma Dashboard_student_card userProfile s :
  UserProfile.role userProfile = student →
  ∃ v, Dashboard (Some userProfile) s = Some v ∧
       StatCard.value <$> cards v !! 3%nat = Some (successRate s).
Proof.
  intros Hrole. eexists. split; [reflexivity|]. simpl. by rewrite Hrole.
Qed.

(** C10. For a student the fourth card shows [Math.round((completedExperiments
    / totalExperiments) * 100)], computed without looking at the divisor: with
    any view model whose [totalExperiments] is 0 the value shown is not a
    finite number, and in the initial view model both operands are 0, the
    quotient is [0 / 0] and the value shown is [NaN].  After a run of
    [fetchStats] on the student path [totalExperiments] is 5, the quotient is
    not [NaN], and, [completedExperiments] being the length of an array, the
    value shown is the integer [20 * completedExperiments], both roundings
    taken into account. *)
Theorem C10_success_rate db userProfile w :
  UserProfile.role userProfile = student →
  (∀ s, ∃ v, Dashboard (Some userProfile) s = Some v ∧
      cards v !! 3%nat =
        Some (StatCard.mk "Success Rate"
                (Number.round
                   (Number.mul
                      (Number.div (completedExperiments s) (totalExperiments s)) 100))
                "bg-purple-500")) ∧
  (∀ s, totalExperiments s = 0 → Number.is_finite (successRate s) = false) ∧
  (completedExperiments initialStats = 0 ∧ totalExperiments initialStats = 0 ∧
   Number.div 0 0 = Number.NaN ∧ successRate initialStats = Number.NaN ∧
   ∃ v, Dashboard (Some userProfile) initialStats = Some v ∧
        StatCard.value <$> cards v !! 3%nat = Some Number.NaN) ∧
  (∃ w', fetchStats db (Some userProfile) w = (Normal (), w') ∧
     totalExperiments (stats w') = 5 ∧
     Number.div (completedExperiments (stats w')) (totalExperiments (stats w'))
       ≠ Number.NaN ∧
     (completedExperiments (stats w') ≤ Array_maxLength →
      successRate (stats w') = Number.of_Z (20 * completedExperiments (stats w')) ∧
      ∃ v, Dashboard (Some userProfile) (stats w') = Some v ∧
           StatCard.value <$> cards v !! 3%nat =
             Some (Number.of_Z (20 * completedExperiments (stats w'))))).
Proof.
  intros Hrole. split; [|split; [|split]].
  - intros s. eexists. split; [reflexivity|].
    simpl. by rewrite Hrole.
  - apply successRate_zero_total.
  - split_and!; [done..|].
    destruct (Dashboard_student_card userProfile initialStats Hrole)
      as (v & Hv & Hcard).
    exists v. split; [exact Hv|]. by rewrite Hcard.
  - eexists. split; [by apply fetchStats_student|].
    split; [done|]. split; [by apply div_not_NaN|].
    intros Hmax.
    assert (successRate (studentStats userProfile) =
              Number.of_Z (20 * completedExperiments (studentStats userProfile))) as Hrate.
    { apply successRate_five; [done|].
      split; [apply studentStats_completed_range | exact Hmax]. }
    split; [exact Hrate|].
    destruct (Dashboard_student_card userProfile (studentStats userProfile) Hrole)
      as (v & Hv & Hcard).
    exists v. split; [exact Hv|]. by rewrite Hcard, Hrate.
Qed.

Lemma C10_aStudent :
  (∃ v, Dashboard (Some aStudent) initialStats = Some v ∧
        StatCard.value <$> cards v !! 3%nat = Some Number.NaN) ∧
  (∃ w', fetchStats scenarioDb (Some aStudent) initialWorld = (Normal (), w') ∧
         totalExperiments (stats w') = 5 ∧
         successRate (stats w') = Number.of_Z 100).
Proof.
  destruct (C10_success_rate scenarioDb aStudent initialWorld eq_refl)
    as (Hcard & _ & _ & w' & Hrun & H5 & _ & Hrate).
  split.
  - destruct (Hcard initialStats) as (v & Hv & Hc).
    exists v. split; [done|]. by rewrite Hc.
  - exists w'. split_and!; [done..|].
    injection Hrun as <-. by destruct Hrate as [-> _].
Defined.

(** * Further properties of the component *)

(** ** Section entries *)

Lemma studentsIn_le s students : studentsIn s students ≤ Z.of_nat (length students).
Proof. unfold studentsIn. pose proof (length_filter (λ st, sectionOf st = s) students). lia. Qed.

Lemma studentsIn_app s l1 l2 :
  studentsIn s (l1 ++ l2) = studentsIn s l1 + studentsIn s l2.
Proof. unfold studentsIn. rewrite filter_app, length_app. lia. Qed.

Lemma sumValues_ge_length (l : list Slice) :
  Forall (λ e, 1 ≤ value e) l → Z.of_nat (length l) ≤ sumValues l.
Proof. induction 1; simpl in *; lia. Qed.

Lemma sectionData_length students :
  (length (sectionData students) ≤ length students)%nat.
Proof.
  pose proof (sumValues_ge_length (sectionData students)) as H.
  rewrite sectionData_sum in H. apply Nat2Z.inj_le, H.
  apply Forall_lookup. intros k e He. by apply sectionData_value in He as [_ ?].
Qed.

(** X1. An entry of the section breakdown counts at least one student and at
    most all of them, and there are at most as many entries as students. *)
Theorem X1_section_entry_bounds students k e :
  sectionData students !! k = Some e →
  1 ≤ value e ≤ Z.of_nat (length students) ∧
  (k < length (sectionData students) ≤ length students)%nat.
Proof.
  intros He. split.
  - destruct (sectionData_value _ _ _ He) as [Hv H1].
    split; [done | rewrite Hv; apply studentsIn_le].
  - split; [by eapply lookup_lt_Some | apply sectionData_length].
Qed.

Lemma X1_nineSections :
  ∃ e, sectionData nineSections !! 0%nat = Some e ∧ name e = "A" ∧
       1 ≤ value e ≤ 11 ∧ (length (sectionData nineSections) ≤ 11)%nat.
Proof.
  eexists. split; [reflexivity|]. split; [reflexivity|].
  destruct (X1_section_entry_bounds nineSections 0 _ eq_refl) as [Hv [_ Hl]].
  split; [exact Hv | exact Hl].
Defined.

(** ** Colours *)

Lemma colors_NoDup : NoDup colors.
Proof. apply (bool_decide_unpack _). by vm_compute. Qed.

(** X2. Two entries of the section breakdown have the same colour exactly
    when their indices agree modulo 8; with at most eight sections all
    colours differ. *)
Theorem X2_colour_shared_iff students :
  (∀ i j e1 e2,
     sectionData students !! i = Some e1 →
     sectionData students !! j = Some e2 →
     color e1 = color e2 ↔ (i mod 8 = j mod 8)%nat) ∧
  ((length (sectionData students) ≤ 8)%nat → NoDup (color <$> sectionData students)).
Proof.
  assert (∀ i j e1 e2,
     sectionData students !! i = Some e1 →
     sectionData students !! j = Some e2 →
     color e1 = color e2 ↔ (i mod 8 = j mod 8)%nat) as Hiff.
  { intros i j e1 e2 [_ H1]%sectionData_lookup [_ H2]%sectionData_lookup.
    change (length colors) with 8%nat in *. split.
    - intros Heq. rewrite Heq in H1.
      eapply NoDup_lookup; [apply colors_NoDup | exact H1 | exact H2].
    - intros Heq. rewrite Heq in H1. congruence. }
  split; [exact Hiff|].
  intros Hlen. apply NoDup_alt. intros i j c Hi Hj.
  rewrite list_lookup_fmap in Hi, Hj.
  destruct (sectionData students !! i) as [e1|] eqn:H1; [|done].
  destruct (sectionData students !! j) as [e2|] eqn:H2; [|done].
  simpl in *. simplify_eq.
  pose proof (lookup_lt_Some _ _ _ H1). pose proof (lookup_lt_Some _ _ _ H2).
  assert (i mod 8 = j mod 8)%nat as Hm by (by eapply Hiff).
  rewrite !Nat.mod_small in Hm by lia. done.
Qed.

Lemma X2_nineSections :
  ∃ e1 e2, sectionData nineSections !! 0%nat = Some e1 ∧
           sectionData nineSections !! 8%nat = Some e2 ∧
           name e1 ≠ name e2 ∧ color e1 = color e2.
Proof.
  eexists _, _. split; [reflexivity|]. split; [reflexivity|]. split; [done|].
  destruct (X2_colour_shared_iff nineSections) as [Hiff _].
  apply (Hiff 0%nat 8%nat); reflexivity.
Defined.

(** ** More students, other orders *)

Lemma sectionMap_app students more :
  sectionMap (students ++ more) = foldl countSection (sectionMap students) more.
Proof. unfold sectionMap. apply foldl_app. Qed.

Lemma sectionData_names_app students more :
  name <$> sectionData students `prefix_of` name <$> sectionData (students ++ more).
Proof.
  unfold sectionData, JsMap.entries.
  rewrite !fmap_name_imap by (by intros i [??]).
  rewrite sectionMap_app, keys_foldl. by eexists.
Qed.

(** X3. Students appended to the list leave every existing entry of the
    section breakdown at its index, with its label and its colour; its count
    grows by the number of appended students with that label. *)
Theorem X3_appended_students_keep_entries students more k e :
  sectionData students !! k = Some e →
  ∃ e', sectionData (students ++ more) !! k = Some e' ∧
        name e' = name e ∧ color e' = color e ∧
        value e' = value e + studentsIn (name e) more.
Proof.
  intros He.
  assert ((name <$> sectionData (students ++ more)) !! k = Some (name e)) as Hn.
  { eapply prefix_lookup_Some; [|apply sectionData_names_app].
    by rewrite list_lookup_fmap, He. }
  rewrite list_lookup_fmap in Hn.
  destruct (sectionData (students ++ more) !! k) as [e'|] eqn:He'; [|done].
  injection Hn as Hn. exists e'. split_and!; [done..| |].
  - apply sectionData_lookup in He as [_ Hc], He' as [_ Hc']. congruence.
  - apply sectionData_value in He as [-> _], He' as [-> _].
    by rewrite Hn, studentsIn_app.
Qed.

Lemma X3_threeStudents :
  ∃ e', sectionData (matching "f1" threeStudents ++ nineSections) !! 1%nat = Some e' ∧
        name e' = "sectionB" ∧ color e' = "#10B981" ∧ value e' = 1.
Proof.
  destruct (X3_appended_students_keep_entries (matching "f1" threeStudents) nineSections
              1 {| name := "sectionB"; value := 1; color := "#10B981" |} eq_refl)
    as (e' & He' & Hn & Hc & Hv).
  exists e'. by split_and!.
Defined.

Lemma studentsIn_Permutation s students students' :
  students ≡ₚ students' → studentsIn s students = studentsIn s students'.
Proof. unfold studentsIn. by intros ->. Qed.

Lemma labelCount_elem n v students :
  (n, v) ∈ labelCount <$> sectionData students ↔
  n ∈ sectionOf <$> students ∧ v = studentsIn n students.
Proof.
  split.
  - intros (e & [= -> ->] & [k He]%list_elem_of_lookup)%list_elem_of_fmap.
    split; [|by apply sectionData_value in He as [? _]].
    rewrite <- elem_of_distinctInOrder, <- sectionData_names.
    apply list_elem_of_fmap_2, list_elem_of_lookup. eauto.
  - intros [Hn ->]. destruct (sectionData_entry n students Hn) as (e & He & <- & <-).
    by apply (list_elem_of_fmap_2 labelCount).
Qed.

Lemma labelCount_NoDup students : NoDup (labelCount <$> sectionData students).
Proof.
  apply (NoDup_fmap_1 fst). rewrite <- list_fmap_compose.
  change (fst ∘ labelCount) with name.
  rewrite sectionData_names. apply NoDup_distinctInOrder.
Qed.

(** X4. The order in which the store returns the documents does not change
    the totals, the experiment progress or the viva progress, and the section
    breakdown has the same labels with the same counts: only their order,
    and with it their colours, can differ. *)
Theorem X4_document_order_is_irrelevant students students' experiments experiments' :
  students ≡ₚ students' →
  experiments ≡ₚ experiments' →
  let s := facultyStats students experiments in
  let s' := facultyStats students' experiments' in
  totalStudents s = totalStudents s' ∧
  totalExperiments s = totalExperiments s' ∧
  completedExperiments s = completedExperiments s' ∧
  vivaAttempts s = vivaAttempts s' ∧
  experimentProgress s = experimentProgress s' ∧
  vivaProgress s = vivaProgress s' ∧
  labelCount <$> sectionWiseStudents s ≡ₚ labelCount <$> sectionWiseStudents s'.
Proof.
  intros Hs He. simpl.
  assert (totalCompletions students = totalCompletions students') as Hc
    by (rewrite !totalCompletions_sum; by rewrite Hs).
  rewrite Hc, (Permutation_length Hs), (Permutation_length He).
  split_and!; try done.
  apply NoDup_Permutation; [apply labelCount_NoDup..|].
  intros [n v]. rewrite !labelCount_elem, (studentsIn_Permutation n _ _ Hs).
  assert (n ∈ sectionOf <$> students ↔ n ∈ sectionOf <$> students') as Hn
    by (by rewrite Hs).
  by rewrite Hn.
Qed.

Lemma X4_reversed :
  experimentProgress (facultyStats (reverse (matching "f1" threeStudents)) twoExperiments) =
    experimentProgress (facultyStats (matching "f1" threeStudents) twoExperiments) ∧
  labelCount <$> sectionData (reverse (matching "f1" threeStudents)) ≡ₚ
    [("sectionA", 2); ("sectionB", 1)].
Proof.
  destruct (X4_document_order_is_irrelevant
              (reverse (matching "f1" threeStudents)) (matching "f1" threeStudents)
              twoExperiments twoExperiments)
    as (_ & _ & _ & _ & Hp & _ & Hl).
  - apply reverse_Permutation.
  - reflexivity.
  - split; [exact Hp | exact Hl].
Defined.

(** ** The progress pies *)

(** X5. The two slices of the experiment progress add up to the larger of
    the expected and the completed number of experiments, on both paths, and
    so do the two slices of the student's viva progress; the faculty's viva
    slices always add up to 100. *)
Theorem X5_progress_slices_sum students experiments userProfile :
  let f := facultyStats students experiments in
  let s := studentStats userProfile in
  sumValues (experimentProgress f) =
    Z.max (totalStudents f * totalExperiments f) (completedExperiments f) ∧
  sumValues (vivaProgress f) = 100 ∧
  sumValues (experimentProgress s) = Z.max 5 (completedExperiments s) ∧
  sumValues (vivaProgress s) = Z.max 5 (vivaAttempts s).
Proof. simpl. split_and!; lia. Qed.

(** ** Runs of [fetchStats] *)

(** X6. For a student [fetchStats] does nothing but call [setStats] once: it
    issues no query and logs nothing, so the view model it leaves does not
    depend on the store or on the state before. *)
Theorem X6_student_path_ignores_store db db' userProfile w w' :
  UserProfile.role userProfile = student →
  newEvents w (fetchStats db (Some userProfile) w) =
    [EvSetStats (studentStats userProfile)] ∧
  stats (fetchStats db (Some userProfile) w).2 =
    stats (fetchStats db' (Some userProfile) w').2.
Proof.
  intros Hrole. split.
  - apply newEvents_app. by rewrite fetchStats_student.
  - by rewrite !fetchStats_student.
Qed.

Lemma X6_unreachable_store :
  newEvents initialWorld (fetchStats failingDb (Some aStudent) initialWorld) =
    [EvSetStats (studentStats aStudent)] ∧
  stats (fetchStats failingDb (Some aStudent) initialWorld).2 =
    stats (fetchStats scenarioDb (Some aStudent) initialWorld).2.
Proof.
  exact (X6_student_path_ignores_store failingDb scenarioDb aStudent
           initialWorld initialWorld eq_refl).
Defined.

(** X7. For a faculty member the first thing [fetchStats] does is to query
    the students of that member.  If this query throws, the experiments are
    never asked for and the error is logged at once; otherwise the
    experiments of the same member are queried next. *)
Theorem X7_faculty_queries_in_order db userProfile w :
  UserProfile.role userProfile = faculty →
  let uid := UserProfile.uid userProfile in
  ∃ rest,
    newEvents w (fetchStats db (Some userProfile) w) = EvGetDocs "students" uid :: rest ∧
    match db "students" with
    | Throw error => rest = [EvConsoleError "Error fetching stats:" error]
    | Normal _ => ∃ outcome, rest = [EvGetDocs "experiments" uid; outcome]
    end.
Proof.
  intros Hrole uid.
  destruct (db "students") as [studentDocs|error] eqn:Hs.
  - destruct (db "experiments") as [experimentDocs|error] eqn:He.
    + eexists. split; [|by eexists].
      apply newEvents_app. by erewrite fetchStats_faculty.
    + eexists. split; [|by eexists].
      apply newEvents_app. by erewrite fetchStats_experiments_throw.
  - eexists. split; [|done].
    apply newEvents_app. by erewrite fetchStats_students_throw.
Qed.

Lemma X7_unreachable_store :
  newEvents initialWorld (fetchStats failingDb (Some aFaculty) initialWorld) =
    [EvGetDocs "students" "f1"; EvConsoleError "Error fetching stats:" "unavailable"].
Proof.
  destruct (X7_faculty_queries_in_order failingDb aFaculty initialWorld eq_refl)
    as (rest & Hev & Hrest).
  simpl in Hrest. by rewrite Hev, Hrest.
Defined.

(** X8. With a profile present, a run of [fetchStats] never throws, issues
    at most two queries and ends in exactly one of two ways: with the one
    call of [setStats], whose argument is then the view model, or with the
    one logged error, the view model being the one before. *)
Theorem X8_one_outcome_per_run db (userProfile : UserProfile.t) w :
  let r := fetchStats db (Some userProfile) w in
  r.1 = Normal () ∧
  ∃ queries outcome,
    newEvents w r = queries ++ [outcome] ∧
    forallb isGetDocs queries = true ∧ (length queries ≤ 2)%nat ∧
    ((outcome = EvSetStats (stats r.2)) ∨
     (∃ error, outcome = EvConsoleError "Error fetching stats:" error) ∧
       stats r.2 = stats w).
Proof.
  intros r. split; [apply fetchStats_returns|]. subst r.
  destruct (UserProfile.role userProfile) eqn:Hrole.
  - destruct (db "students") as [studentDocs|error] eqn:Hs.
    + destruct (db "experiments") as [experimentDocs|error] eqn:He.
      * exists [EvGetDocs "students" (UserProfile.uid userProfile);
                EvGetDocs "experiments" (UserProfile.uid userProfile)].
        eexists. erewrite fetchStats_faculty by done.
        split; [by apply newEvents_app|]. simpl. split_and!; [done|lia|by left].
      * exists [EvGetDocs "students" (UserProfile.uid userProfile);
                EvGetDocs "experiments" (UserProfile.uid userProfile)].
        eexists. erewrite fetchStats_experiments_throw by done.
        split; [by apply newEvents_app|]. simpl. split_and!; [done|lia|].
        right. split; [by eexists | done].
    + exists [EvGetDocs "students" (UserProfile.uid userProfile)].
      eexists. erewrite fetchStats_students_throw by done.
      split; [by apply newEvents_app|]. simpl. split_and!; [done|lia|].
      right. split; [by eexists | done].
  - exists []. eexists. rewrite fetchStats_student by done.
    split; [by apply newEvents_app|]. simpl. split_and!; [done|lia|by left].
Qed.

(** X9. Running [fetchStats] a second time with the same profile against
    the same store leaves the view model of the first run, whether the runs
    succeed, fail or find no profile. *)
Theorem X9_second_run_changes_nothing db userProfile w :
  let w1 := (fetchStats db userProfile w).2 in
  stats (fetchStats db userProfile w1).2 = stats w1.
Proof.
  cbv zeta. destruct userProfile as [p|]; [|done].
  destruct (UserProfile.role p) eqn:Hrole.
  - destruct (db "students") as [studentDocs|error] eqn:Hs.
    + destruct (db "experiments") as [experimentDocs|error] eqn:He.
      * by erewrite !fetchStats_faculty.
      * by erewrite !fetchStats_experiments_throw.
    + by erewrite !fetchStats_students_throw.
  - by rewrite !fetchStats_student.
Qed.

(** ** What is rendered after a run *)

Lemma sectionData_nil students : sectionData students = [] ↔ students = [].
Proof.
  split; [|by intros ->].
  intros Hnil. destruct students as [|st students]; [done|].
  apply (f_equal (fmap name)) in Hnil. by rewrite sectionData_names in Hnil.
Qed.

(** X10. After a run for a faculty member with both queries answered, the
    dashboard shows the chart [Students by Section] exactly when the member
    has at least one student; the other two charts are always shown, in the
    same order. *)
Theorem X10_section_chart_needs_students db userProfile w studentDocs experimentDocs :
  UserProfile.role userProfile = faculty →
  db "students" = Normal studentDocs →
  db "experiments" = Normal experimentDocs →
  ∃ v, Dashboard (Some userProfile) (stats (fetchStats db (Some userProfile) w).2) = Some v ∧
    PieChartCard.title <$> charts v =
      (if decide (matching (UserProfile.uid userProfile) studentDocs = [])
       then [] else ["Students by Section"])
      ++ ["Experiment Progress"; "Viva Progress"].
Proof.
  intros Hrole Hs He. eexists. split; [reflexivity|].
  erewrite fetchStats_faculty by done. simpl. rewrite Hrole. simpl.
  case_decide as Hnil.
  - by rewrite Hnil.
  - rewrite bool_decide_true; [done|].
    destruct (sectionData _) eqn:Hsd; [by apply sectionData_nil in Hsd | simpl; lia].
Qed.

Lemma X10_no_students :
  ∃ v, Dashboard (Some aFaculty)
         (stats (fetchStats (λ _, Normal []) (Some aFaculty) initialWorld).2) = Some v ∧
    PieChartCard.title <$> charts v = ["Experiment Progress"; "Viva Progress"].
Proof.
  exact (X10_section_chart_needs_students (λ _, Normal []) aFaculty initialWorld
           [] [] eq_refl eq_refl eq_refl).
Defined.

(** X11. A student who has completed more than five experiments (in an
    array, so not more than [Array_maxLength]) sees no remaining experiment
    and a success rate above 100: the rate is not kept within the assumed
    total as the [Remaining] slice is. *)
Theorem X11_success_rate_above_100 db userProfile w completed :
  UserProfile.role userProfile = student →
  UserProfile.experimentsCompleted userProfile = Some completed →
  (5 < length completed)%nat →
  Z.of_nat (length completed) ≤ Array_maxLength →
  let s := stats (fetchStats db (Some userProfile) w).2 in
  successRate s = Number.of_Z (20 * Z.of_nat (length completed)) ∧
  100 < 20 * Z.of_nat (length completed) ∧
  experimentProgress s =
    [ {| name := "Completed"; value := Z.of_nat (length completed); color := "#10B981" |};
      {| name := "Remaining"; value := 0; color := "#F59E0B" |} ].
Proof.
  intros Hrole Hc Hlen Hmax. rewrite fetchStats_student by done. cbv zeta.
  split; [|split; [lia|]].
  - rewrite successRate_five.
    + simpl. by rewrite Hc.
    + done.
    + simpl. rewrite Hc. lia.
  - simpl. rewrite Hc. do 3 f_equal. lia.
Qed.

Lemma X11_seven_completed :
  successRate (stats (fetchStats scenarioDb (Some overfullStudent) initialWorld).2) =
    Number.of_Z 140.
Proof.
  destruct (X11_success_rate_above_100 scenarioDb overfullStudent initialWorld _
              eq_refl eq_refl) as (Hrate & _ & _).
  - simpl. lia.
  - by vm_compute.
  - exact Hrate.
Defined.

(** ** The cells of a pie *)

Lemma pieCells_lookup data i :
  pieCells data !! i =
    (λ entry, {| key := "cell-" +:+ pretty i; fill := color entry |}) <$> data !! i.
Proof. unfold pieCells. apply list_lookup_imap. Qed.

(** X12. A pie has one cell per slice, filled with the colour of the slice,
    in the order of the slices, and no two cells have the same key. *)
Theorem X12_pie_cells data :
  length (pieCells data) = length data ∧
  fill <$> pieCells data = color <$> data ∧
  NoDup (key <$> pieCells data).
Proof.
  split_and!.
  - apply length_imap.
  - apply list_eq. intros i.
    rewrite !list_lookup_fmap, pieCells_lookup. by destruct (data !! i).
  - apply NoDup_alt. intros i j k.
    rewrite !list_lookup_fmap, !pieCells_lookup.
    destruct (data !! i); [|done]. destruct (data !! j); [|done].
    simpl. intros [= <-] Hk.
    assert ("cell-" +:+ pretty j = "cell-" +:+ pretty i) as Hk' by congruence.
    by apply (inj (String.app "cell-")), (inj pretty) in Hk'.
Qed.
